(** * APITestingBot: command handlers of [main.py]

    A shallow embedding of the four request handlers of the Telegram bot
    ([handle_get], [handle_post_put] with its wrappers [handle_post] and
    [handle_put], and [handle_delete]) together with the string operations
    they rely on, followed by the properties of the handlers.

    Python strings are sequences of Unicode code points; [len], slicing and
    [startswith] all count code points, so a [str] is modelled as a list of
    code points rather than as a byte string. *)

From Stdlib Require Import ZArith NArith List String Ascii Lia Bool.
From Stdlib Require Import Floats.SpecFloat.
From stdpp Require Import base list pretty.

Set Warnings "-register-all".
Local Open Scope nat_scope.

(** ** Python strings *)

Module Py.

Definition char := N.
Definition str := list char.

(** An ASCII literal of the source as a [str]. *)
Definition lit (s : string) : str :=
  map N_of_ascii (list_ascii_of_string s).
Arguments lit s%_string.

Definition nl : str := [10%N].

(** [s.startswith(p)] *)
Fixpoint startswith (p s : str) : bool :=
  match p, s with
  | [], _ => true
  | _ :: _, [] => false
  | a :: p', b :: s' => N.eqb a b && startswith p' s'
  end.

(** [s.split(sep, maxsplit)] for a one-character separator: the text is cut
    at each of the first [maxsplit] occurrences of [sep]; two adjacent
    separators delimit an empty part and the list is never empty. *)
Fixpoint split (sep : char) (maxsplit : nat) (s : str) : list str :=
  match s with
  | [] => [[]]
  | c :: s' =>
      match maxsplit with
      | S m =>
          if N.eqb c sep then [] :: split sep m s'
          else match split sep maxsplit s' with
               | p :: ps => (c :: p) :: ps
               | [] => [[c]]
               end
      | O => [s]
      end
  end.

(** [sep.join(parts)] *)
Fixpoint join (sep : str) (parts : list str) : str :=
  match parts with
  | [] => []
  | [p] => p
  | p :: ps => p ++ sep ++ join sep ps
  end.

(** [str.isspace] on one code point: the characters whose bidirectional
    class is WS, B or S, or whose category is Zs. *)
Definition isspace (c : char) : bool :=
  ((9 <=? c) && (c <=? 13) || (28 <=? c) && (c <=? 32)
   || (c =? 133) || (c =? 160) || (c =? 5760)
   || (8192 <=? c) && (c <=? 8202)
   || (c =? 8232) || (c =? 8233) || (c =? 8239) || (c =? 8287)
   || (c =? 12288))%N.

(** [s.split(None, maxsplit)]: runs of whitespace separate the words, and
    once [maxsplit] words have been cut off, what follows the next run of
    whitespace is the last part as it stands. *)
Fixpoint split_ws (maxsplit : nat) (s : str) : list str :=
  match s with
  | [] => []
  | c :: s' =>
      if isspace c then split_ws maxsplit s'
      else match maxsplit with
           | O => [s]
           | S m => word_ws m [c] s'
           end
  end
with word_ws (m : nat) (acc : str) (s : str) : list str :=
  match s with
  | [] => [rev acc]
  | c :: s' =>
      if isspace c then rev acc :: split_ws m s' else word_ws m (c :: acc) s'
  end.

(** [s.split()] *)
Definition words (s : str) : list str := split_ws (length s) s.

(** [s.lower()] restricted to the ASCII letters, which is all the handlers
    apply it to (the method names ["POST"] and ["PUT"]). *)
Definition lower_char (c : char) : char :=
  if ((65 <=? c) && (c <=? 90))%N then (c + 32)%N else c.
Definition lower (s : str) : str := map lower_char s.

(** [s == t] *)
Fixpoint eqb (s t : str) : bool :=
  match s, t with
  | [], [] => true
  | a :: s', b :: t' => N.eqb a b && eqb s' t'
  | _, _ => false
  end.

(** [str(n)] for an [int]. *)
Definition of_int (z : Z) : str := lit (pretty z).

End Py.

Import Py.

(** ** JSON values and the [json] module

    The handlers use [json.loads] and [json.dumps] of the Python standard
    library and the [.json()] accessor of a response; none of them is part
    of [main.py].  Their results are Python objects of the shapes below. *)

Inductive value :=
| VNone
| VBool (b : bool)
| VInt (z : Z)
| VFloat (f : spec_float)
| VStr (s : str)
| VList (l : list value)
| VDict (d : list (str * value)).

(** [json.JSONDecodeError(msg, doc, pos)].  The exception prints as
    ["<msg>: line <lineno> column <colno> (char <pos>)"], with the line and
    the column computed from [doc] and [pos]. *)
Record JSONDecodeError := {
  err_msg : str;
  err_doc : str;
  err_pos : nat
}.

(** [doc.count('\n', 0, pos)] *)
Definition count_newlines (doc : str) (pos : nat) : nat :=
  length (List.filter (N.eqb 10) (take pos doc)).

(** [doc.rfind('\n', 0, pos)], which is [-1] when there is no newline. *)
Fixpoint rfind_newline_from (i : Z) (s : str) (last : Z) : Z :=
  match s with
  | [] => last
  | c :: s' => rfind_newline_from (i + 1)%Z s' (if N.eqb c 10 then i else last)
  end.
Definition rfind_newline (doc : str) (pos : nat) : Z :=
  rfind_newline_from 0%Z (take pos doc) (-1)%Z.

(** [str(e)] for a [JSONDecodeError]. *)
Definition str_of_error (e : JSONDecodeError) : str :=
  let lineno := (Z.of_nat (count_newlines (err_doc e) (err_pos e)) + 1)%Z in
  let colno := (Z.of_nat (err_pos e) - rfind_newline (err_doc e) (err_pos e))%Z in
  err_msg e ++ lit ": line " ++ of_int lineno ++ lit " column " ++ of_int colno
    ++ lit " (char " ++ of_int (Z.of_nat (err_pos e)) ++ lit ")".

(** ** HTTP responses and the effects of a handler *)

Inductive Method := GET | POST | PUT | DELETE.

(** What the handlers read of a [requests.Response].  [json] is the result
    of [response.json()]: [None] when it raises [ValueError]. *)
Record Response := {
  status_code : Z;
  reason : str;
  headers : list (str * str);
  content : list N;
  text : str;
  json : option value
}.

(** [requests] returns the empty text for a response without content. *)
Definition wf_response (r : Response) : Prop :=
  content r = [] -> text r = [].

(** The outcome of [requests.get/post/put/delete], as the [except] clauses
    of the handlers tell them apart; [e] is [str(e)]. *)
Inductive HttpResult :=
| Returned (response : Response)
| RaisedTimeout
| RaisedRequestException (e : str)
| RaisedException (e : str).

(** A handler is a finite program over two effects: sending a reply through
    [update.message.reply_text(text, parse_mode=...)] and performing one
    HTTP request, whose outcome the rest of the handler depends on. *)
Inductive Prog :=
| Done
| ReplyText (text : str) (parse_mode : option str) (k : Prog)
| Request (m : Method) (url : str) (json_arg : option value) (timeout : Z)
    (k : HttpResult -> Prog).

Inductive Event :=
| SentReply (text : str) (parse_mode : option str)
| SentRequest (m : Method) (url : str) (json_arg : option value) (timeout : Z).

(** The network, as far as a handler can observe it. *)
Definition Network := Method -> str -> option value -> HttpResult.

Fixpoint run (net : Network) (p : Prog) : list Event :=
  match p with
  | Done => []
  | ReplyText t pm k => SentReply t pm :: run net k
  | Request m url j tmo k => SentRequest m url j tmo :: run net (k (net m url j))
  end.

Definition is_reply (e : Event) : bool :=
  match e with SentReply _ _ => true | SentRequest _ _ _ _ => false end.
Definition is_request (e : Event) : bool := negb (is_reply e).

Definition requests (tr : list Event) : nat := length (List.filter is_request tr).


(** The URLs of the requests of a trace. *)
Fixpoint request_urls (tr : list Event) : list str :=
  match tr with
  | [] => []
  | SentRequest _ url _ _ :: tr' => url :: request_urls tr'
  | SentReply _ _ :: tr' => request_urls tr'
  end.

(** ** The handlers *)

Definition http_prefix : str := lit "http://".
Definition https_prefix : str := lit "https://".

(** [url.startswith("http://") or url.startswith("https://")] *)
Definition valid_scheme (url : str) : bool :=
  startswith http_prefix url || startswith https_prefix url.

Definition MarkdownV2 : option str := Some (lit "MarkdownV2").

Definition invalid_url_message : str :=
  lit "Invalid URL. Please include http:// or https://".

Definition body_truncated : str := nl ++ nl ++ lit "... (response body truncated)".
Definition headers_truncated : str := nl ++ nl ++ lit "... (headers truncated)".
Definition no_response_body : str := lit "(No response body)".

(** The display limits of the formatted body and of the formatted headers. *)
Definition body_limit : nat := 3500.
Definition headers_limit : nat := 1000.

Definition play : str := [9654%N; 65039%N].
Definition check_mark : str := [9989%N].
Definition cross_mark : str := [10060%N].

(** [dict(response.headers)] as the object handed to [json.dumps]. *)
Definition headers_dict (r : Response) : value :=
  VDict (map (fun kv => (fst kv, VStr (snd kv))) (headers r)).

Section Handlers.

(** [json.loads(s)]: the parsed object, or the [JSONDecodeError] raised. *)
Variable json_loads : str -> value + JSONDecodeError.

(** [json.dumps(obj, indent=2, ensure_ascii=False)] *)
Variable json_dumps : value -> str.

(** The formatted body of [handle_get] and [handle_post_put] before
    truncation: the re-serialized JSON when [response.json()] succeeds, the
    text of the response otherwise. *)
Definition response_body_formatted (response : Response) : str :=
  match json response with
  | Some response_json => json_dumps response_json
  | None => text response
  end.

(** The formatted headers before truncation. *)
Definition response_headers_formatted (response : Response) : str :=
  json_dumps (headers_dict response).

(** The [reply_message] that the [try] statement of [handle_get] builds. *)
Definition get_reply_message (url : str) (res : HttpResult) : str :=
  match res with
  | Returned response =>
      let status_code := status_code response in
      let response_body_formatted := response_body_formatted response in
      let response_headers_formatted := response_headers_formatted response in
      let response_body_formatted :=
        if body_limit <? length response_body_formatted
        then take body_limit response_body_formatted ++ body_truncated
        else response_body_formatted in
      let response_headers_formatted :=
        if headers_limit <? length response_headers_formatted
        then take headers_limit response_headers_formatted ++ headers_truncated
        else response_headers_formatted in
      check_mark ++ lit " *GET Response from " ++ url ++ lit "*" ++ nl ++ nl
        ++ lit "*Status Code:* `" ++ of_int status_code ++ lit " "
        ++ reason response ++ lit "`" ++ nl ++ nl
        ++ lit "*Headers:*" ++ nl ++ lit "```json" ++ nl
        ++ response_headers_formatted ++ nl ++ lit "```" ++ nl ++ nl
        ++ lit "*Body:*" ++ nl ++ lit "```json" ++ nl
        ++ response_body_formatted ++ nl ++ lit "```"
  | RaisedTimeout =>
      cross_mark ++ lit " *Timeout Error*" ++ nl ++ nl
        ++ lit "The request to " ++ url ++ lit " timed out."
  | RaisedRequestException e =>
      cross_mark ++ lit " *Request Error for " ++ url ++ lit "*" ++ nl ++ nl
        ++ lit "`" ++ e ++ lit "`"
  | RaisedException e =>
      cross_mark ++ lit " *An unexpected error occurred for " ++ url ++ lit "*"
        ++ nl ++ nl ++ lit "`" ++ e ++ lit "`"
  end.

Definition handle_get (args : list str) : Prog :=
  match args with
  | [] =>
      ReplyText (lit "Please provide a URL." ++ nl ++ lit "Usage: `/get <URL>`")
        None Done
  | url :: _ =>
      if negb (valid_scheme url) then ReplyText invalid_url_message None Done
      else
        ReplyText (play ++ lit " Sending GET request to: " ++ url ++ lit "...") None
          (Request GET url None 15 (fun res =>
             ReplyText (get_reply_message url res) MarkdownV2 Done))
  end.

(** The [reply_message] that the [try] statement of [handle_post_put]
    builds once the request has been made. *)
Definition post_put_reply_message (method url : str) (res : HttpResult) : str :=
  match res with
  | Returned response =>
      let status_code := status_code response in
      let response_body_formatted := response_body_formatted response in
      let response_headers_formatted := response_headers_formatted response in
      let response_body_formatted :=
        if body_limit <? length response_body_formatted
        then take body_limit response_body_formatted ++ body_truncated
        else response_body_formatted in
      let response_headers_formatted :=
        if headers_limit <? length response_headers_formatted
        then take headers_limit response_headers_formatted ++ headers_truncated
        else response_headers_formatted in
      check_mark ++ lit " *" ++ method ++ lit " Response from " ++ url ++ lit "*"
        ++ nl ++ nl
        ++ lit "*Status Code:* `" ++ of_int status_code ++ lit " "
        ++ reason response ++ lit "`" ++ nl ++ nl
        ++ lit "*Body:*" ++ nl ++ lit "```json" ++ nl
        ++ response_body_formatted ++ nl ++ lit "```"
  | RaisedTimeout =>
      cross_mark ++ lit " *Timeout Error*" ++ nl ++ nl
        ++ lit "The " ++ method ++ lit " request to " ++ url ++ lit " timed out."
  | RaisedRequestException e =>
      cross_mark ++ lit " *Request Error for " ++ method ++ lit " to " ++ url
        ++ lit "*" ++ nl ++ nl ++ lit "`" ++ e ++ lit "`"
  | RaisedException e =>
      cross_mark ++ lit " *An unexpected error occurred for " ++ method
        ++ lit " to " ++ url ++ lit "*" ++ nl ++ nl ++ lit "`" ++ e ++ lit "`"
  end.

(** The second half of [handle_post_put], from the JSON validation of the
    payload text [json_data_str] on. *)
Definition post_put_send (method url json_data_str : str) : Prog :=
  match json_loads json_data_str with
  | inr e =>
      ReplyText (lit "Invalid JSON data provided for " ++ method
                   ++ lit " request." ++ nl ++ lit "Error: `"
                   ++ str_of_error e ++ lit "`" ++ nl
                   ++ lit "Please ensure it's a well-formed JSON string.")
        None Done
  | inl parsed_json_data =>
      let finish := fun res =>
        ReplyText (post_put_reply_message method url res) MarkdownV2 Done in
      ReplyText (play ++ lit " Sending " ++ method ++ lit " request to: "
                   ++ url ++ lit " with data: `" ++ take 200 json_data_str
                   ++ (if 200 <? length json_data_str then lit "..." else [])
                   ++ lit "`...") None
        (if eqb method (lit "POST") then
           Request POST url (Some parsed_json_data) 15 finish
         else if eqb method (lit "PUT") then
           Request PUT url (Some parsed_json_data) 15 finish
         else ReplyText (lit "Unsupported method internally.") None Done)
  end.

Definition handle_post_put (message_text : str) (method : str) : Prog :=
  let parts := split 32%N 2 message_text in
  if length parts <? 2 then
    ReplyText (lit "Please provide a URL." ++ nl ++ lit "Usage: `/"
                 ++ lower method ++ lit " <URL> <JSON_DATA>`") None Done
  else
    let url := nth 1 parts [] in
    if negb (valid_scheme url) then ReplyText invalid_url_message None Done
    else
      let json_data_str := if 2 <? length parts then nth 2 parts [] else lit "{}" in
      post_put_send method url json_data_str.

Definition handle_post (message_text : str) : Prog :=
  handle_post_put message_text (lit "POST").

Definition handle_put (message_text : str) : Prog :=
  handle_post_put message_text (lit "PUT").

(** The formatted body of [handle_delete] before truncation. *)
Definition delete_response_body_formatted (response : Response) : str :=
  match content response with
  | _ :: _ =>
      match json response with
      | Some response_json => json_dumps response_json
      | None => text response
      end
  | [] => text response
  end.

Definition delete_reply_message (url : str) (res : HttpResult) : str :=
  match res with
  | Returned response =>
      let status_code := status_code response in
      let response_body_formatted := delete_response_body_formatted response in
      let response_body_formatted :=
        if body_limit <? length response_body_formatted
        then take body_limit response_body_formatted ++ body_truncated
        else response_body_formatted in
      check_mark ++ lit " *DELETE Response from " ++ url ++ lit "*" ++ nl ++ nl
        ++ lit "*Status Code:* `" ++ of_int status_code ++ lit " "
        ++ reason response ++ lit "`" ++ nl ++ nl
        ++ lit "*Body:*" ++ nl ++ lit "```" ++ nl
        ++ (match response_body_formatted with
            | _ :: _ => response_body_formatted
            | [] => no_response_body
            end) ++ nl ++ lit "```"
  | RaisedTimeout =>
      cross_mark ++ lit " *Timeout Error*" ++ nl ++ nl
        ++ lit "The DELETE request to " ++ url ++ lit " timed out."
  | RaisedRequestException e =>
      cross_mark ++ lit " *Request Error for DELETE to " ++ url ++ lit "*"
        ++ nl ++ nl ++ lit "`" ++ e ++ lit "`"
  | RaisedException e =>
      cross_mark ++ lit " *An unexpected error occurred for DELETE to " ++ url
        ++ lit "*" ++ nl ++ nl ++ lit "`" ++ e ++ lit "`"
  end.

Definition handle_delete (args : list str) : Prog :=
  match args with
  | [] =>
      ReplyText (lit "Please provide a URL." ++ nl ++ lit "Usage: `/delete <URL>`")
        None Done
  | url :: _ =>
      if negb (valid_scheme url) then ReplyText invalid_url_message None Done
      else
        ReplyText (play ++ lit " Sending DELETE request to: " ++ url ++ lit "...")
          None
          (Request DELETE url None 15 (fun res =>
             ReplyText (delete_reply_message url res) MarkdownV2 Done))
  end.

(** [handle_post_put] as the specification words its parsing step: the text
    is split on whitespace into at most three parts.  Only the splitting
    differs from [handle_post_put]. *)
Definition spec_handle_post_put (message_text : str) (method : str) : Prog :=
  let parts := split_ws 2 message_text in
  if length parts <? 2 then
    ReplyText (lit "Please provide a URL." ++ nl ++ lit "Usage: `/"
                 ++ lower method ++ lit " <URL> <JSON_DATA>`") None Done
  else
    let url := nth 1 parts [] in
    if negb (valid_scheme url) then ReplyText invalid_url_message None Done
    else
      let json_data_str := if 2 <? length parts then nth 2 parts [] else lit "{}" in
      post_put_send method url json_data_str.

End Handlers.

(** [context.args] as the [CommandHandler] of python-telegram-bot hands it to
    [handle_get] and [handle_delete]: the words of the message text after
    the command. *)
Definition context_args (message_text : str) : list str :=
  tl (words message_text).



(** ** Vocabulary of the properties *)

(** The replies to a command that cannot be carried out. *)
Definition missing_url_get : Prog :=
  ReplyText (lit "Please provide a URL." ++ nl ++ lit "Usage: `/get <URL>`") None Done.

Definition missing_url_delete : Prog :=
  ReplyText (lit "Please provide a URL." ++ nl ++ lit "Usage: `/delete <URL>`")
    None Done.

Definition missing_url_post_put (method : str) : Prog :=
  ReplyText (lit "Please provide a URL." ++ nl ++ lit "Usage: `/"
               ++ lower method ++ lit " <URL> <JSON_DATA>`") None Done.

Definition invalid_url : Prog := ReplyText invalid_url_message None Done.

Definition invalid_json_message (method : str) (e : JSONDecodeError) : str :=
  lit "Invalid JSON data provided for " ++ method ++ lit " request." ++ nl
    ++ lit "Error: `" ++ str_of_error e ++ lit "`" ++ nl
    ++ lit "Please ensure it's a well-formed JSON string.".

(** The notice sent before a POST or PUT request. *)
Definition sending_notice (method url json_data_str : str) : str :=
  play ++ lit " Sending " ++ method ++ lit " request to: " ++ url
    ++ lit " with data: `" ++ take 200 json_data_str
    ++ (if 200 <? length json_data_str then lit "..." else []) ++ lit "`...".

(** The request method that [handle_post_put] selects for its [method]. *)
Definition method_of (method : str) : option Method :=
  if eqb method (lit "POST") then Some POST
  else if eqb method (lit "PUT") then Some PUT
  else None.

(** The payload text of a command, given its parts after the URL. *)
Definition payload_text (rest : list str) : str :=
  match rest with
  | [] => lit "{}"
  | remainder :: _ => remainder
  end.

(** Whitespace and other characters. *)
Definition blank (c : char) : Prop := isspace c = true.
Definition solid (c : char) : Prop := isspace c = false.

(** The parts of a success message: the status block, the block of the
    formatted headers and the block of the formatted body. *)
Definition status_block (title url : str) (r : Response) : str :=
  check_mark ++ lit " *" ++ title ++ lit " Response from " ++ url ++ lit "*"
    ++ nl ++ nl
    ++ lit "*Status Code:* `" ++ of_int (status_code r) ++ lit " " ++ reason r
    ++ lit "`" ++ nl ++ nl.

Definition headers_block (shown : str) : str :=
  lit "*Headers:*" ++ nl ++ lit "```json" ++ nl ++ shown ++ nl ++ lit "```"
    ++ nl ++ nl.

Definition json_body_block (shown : str) : str :=
  lit "*Body:*" ++ nl ++ lit "```json" ++ nl ++ shown ++ nl ++ lit "```".

Definition plain_body_block (shown : str) : str :=
  lit "*Body:*" ++ nl ++ lit "```" ++ nl ++ shown ++ nl ++ lit "```".

(** A text cut to its first [limit] characters and marked, when it is longer
    than that. *)
Definition truncated (limit : nat) (marker s : str) : str :=
  if limit <? length s then take limit s ++ marker else s.


(** A URL that may be requested. *)
Definition scheme_validated (u : str) : Prop := valid_scheme u = true /\ u <> [].


(** The reply of [handle_post_put] to a method that is neither [POST] nor
    [PUT]. *)
Definition unsupported_method_message : str := lit "Unsupported method internally.".





(** The requests of a trace. *)
Definition requests_of (tr : list Event) : list Event := List.filter is_request tr.

(** ** An environment for the examples

    The examples below run the handlers against a concrete environment:
    a serializer that lays objects out as [json.dumps] does, [json.loads] on
    the handful of documents that the examples use, and a few networks. *)

Module Example.

Section Dumps.

(** [indent=2, ensure_ascii=False] for the formatted bodies, [indent=None,
    ensure_ascii=True] for the body of a request. *)
Variable indent : option nat.
Variable ensure_ascii : bool.

Definition hex_digit (n : N) : char :=
  if (n <? 10)%N then (48 + n)%N else (87 + n)%N.

Definition u_escape (c : N) : str :=
  lit "\u" ++ map hex_digit
    [(c / 4096) mod 16; (c / 256) mod 16; (c / 16) mod 16; c mod 16]%N.

Definition escape_char (c : char) : str :=
  if (c =? 34)%N then lit "\" ++ [34%N]
  else if (c =? 92)%N then lit "\\"
  else if (c =? 10)%N then lit "\n"
  else if (c =? 13)%N then lit "\r"
  else if (c =? 9)%N then lit "\t"
  else if (c =? 8)%N then lit "\b"
  else if (c =? 12)%N then lit "\f"
  else if (c <? 32)%N then u_escape c
  else if ensure_ascii && (126 <? c)%N then
    if (c <? 65536)%N then u_escape c
    else u_escape (55296 + ((c - 65536) / 1024) mod 1024)
           ++ u_escape (56320 + (c - 65536) mod 1024)
  else [c].

Definition quoted (s : str) : str :=
  [34%N] ++ concat (map escape_char s) ++ [34%N].

Definition newline_indent (level : nat) : str :=
  match indent with
  | Some n => nl ++ repeat 32%N (n * level)
  | None => []
  end.

Definition item_separator : str :=
  match indent with Some _ => lit "," | None => lit ", " end.

(** The decimal form of a float is not modelled; the examples contain no
    float, and one would be printed as the empty text. *)
Fixpoint encode (level : nat) (v : value) : str :=
  match v with
  | VNone => lit "null"
  | VBool true => lit "true"
  | VBool false => lit "false"
  | VInt z => of_int z
  | VFloat _ => []
  | VStr s => quoted s
  | VList [] => lit "[]"
  | VList l =>
      lit "[" ++ newline_indent (S level)
        ++ join (item_separator ++ newline_indent (S level))
             (map (encode (S level)) l)
        ++ newline_indent level ++ lit "]"
  | VDict [] => lit "{}"
  | VDict d =>
      lit "{" ++ newline_indent (S level)
        ++ join (item_separator ++ newline_indent (S level))
             (map (fun kv => quoted (fst kv) ++ lit ": " ++ encode (S level) (snd kv)) d)
        ++ newline_indent level ++ lit "}"
  end.

End Dumps.

(** [json.dumps(obj, indent=2, ensure_ascii=False)] *)
Definition json_dumps : value -> str := encode (Some 2) false 0.


(** The object that the document [{"title": "x"}] denotes. *)
Definition title_x : value := VDict [(lit "title", VStr (lit "x"))].

(** Three layouts of that document: without blanks, with blanks around
    every token, and as [request_dumps] writes it. *)
Definition doc_compact : str :=
  lit "{" ++ [34%N] ++ lit "title" ++ [34%N] ++ lit ":" ++ [34%N] ++ lit "x"
    ++ [34%N] ++ lit "}".
Definition doc_spaced : str :=
  lit "{ " ++ [34%N] ++ lit "title" ++ [34%N] ++ lit " :  " ++ [34%N] ++ lit "x"
    ++ [34%N] ++ lit " }".
Definition doc_sent : str :=
  lit "{" ++ [34%N] ++ lit "title" ++ [34%N] ++ lit ": " ++ [34%N] ++ lit "x"
    ++ [34%N] ++ lit "}".

(** [json.loads] on the documents of the examples: the layouts of
    [{"title": "x"}] and the empty object; any other document is taken to
    start no JSON value, as [oops] does, for which [json.loads] raises
    ["Expecting value"] at position 0. *)
Definition json_loads (s : str) : value + JSONDecodeError :=
  if eqb s doc_compact || eqb s doc_spaced || eqb s doc_sent then inl title_x
  else if eqb s (lit "{}") then inl (VDict [])
  else inr {| err_msg := lit "Expecting value"; err_doc := s; err_pos := 0 |}.

Definition timing_out : Network := fun _ _ _ => RaisedTimeout.

(** [204 No Content] without a body. *)
Definition no_content : Response :=
  {| status_code := 204; reason := lit "No Content"; headers := [];
     content := []; text := []; json := None |}.

(** A response whose text is [n] times the letter [a]. *)
Definition letters (n : nat) : Response :=
  {| status_code := 200; reason := lit "OK"; headers := [];
     content := repeat 97%N n; text := repeat 97%N n; json := None |}.

(** A response with one header whose value is [n] times the letter [a]. *)
Definition long_header (n : nat) : Response :=
  {| status_code := 200; reason := lit "OK";
     headers := [(lit "X-Pad", repeat 97%N n)];
     content := lit "ok"; text := lit "ok"; json := None |}.

(** A JSON array of [n] ones: [n] elements in [json], written without
    blanks in [text]. *)
Definition ones (n : nat) : Response :=
  {| status_code := 200; reason := lit "OK"; headers := [];
     content := lit "[" ++ join (lit ",") (repeat (lit "1") n) ++ lit "]";
     text := lit "[" ++ join (lit ",") (repeat (lit "1") n) ++ lit "]";
     json := Some (VList (repeat (VInt 1) n)) |}.

(** A response whose body is the JSON document of the empty string, two
    quotation marks. *)
Definition empty_json_string : Response :=
  {| status_code := 200; reason := lit "OK"; headers := [];
     content := [34%N; 34%N]; text := [34%N; 34%N]; json := Some (VStr []) |}.

Definition url : str := lit "https://example.com/thing".

(** [json.loads] as above, on a document that may be followed by blanks,
    which [json.loads] skips. *)
Fixpoint skip_blanks (s : str) : str :=
  match s with
  | c :: s' => if N.eqb c 32 then skip_blanks s' else s
  | [] => []
  end.

Definition json_loads_padded (s : str) : value + JSONDecodeError :=
  json_loads (rev (skip_blanks (rev s))).

(** The empty object followed by [n] blanks. *)
Definition padded_object (n : nat) : str := lit "{}" ++ repeat 32%N n.

(** [/post], two blanks, and the URL. *)
Definition post_two_blanks : str := lit "/post  https://example.com/thing".

End Example.

(** Equality of two texts up to the bracketing of their concatenation. *)
Ltac flatten_app := rewrite <- ?app_assoc; reflexivity.

(** The lengths of the literals of a goal, computed. *)
Ltac literal_lengths :=
  repeat match goal with
         | |- context [length (lit ?s)] =>
             let n := eval vm_compute in (length (lit s)) in
             change (length (lit s)) with n
         end;
  change (length nl) with 1; change (length check_mark) with 1.

(** ** Facts about the string operations *)

Section SplitFacts.

Variable sep : char.

Lemma split_not_nil m s : split sep m s <> [].
Proof.
  destruct s as [|c s]; [discriminate|].
  destruct m as [|m]; simpl; [discriminate|].
  destruct (N.eqb c sep); [discriminate|].
  destruct (split sep (S m) s); discriminate.
Qed.

Lemma split_length m s : 1 <= length (split sep m s) <= S m.
Proof.
  revert m. induction s as [|c s IH]; intros m; [simpl; lia|].
  destruct m as [|m]; simpl; [lia|].
  destruct (N.eqb c sep).
  - specialize (IH m). simpl. lia.
  - specialize (IH (S m)). destruct (split sep (S m) s); simpl in *; lia.
Qed.

Lemma join_cons sp p q ps : join sp (p :: q :: ps) = p ++ sp ++ join sp (q :: ps).
Proof. reflexivity. Qed.

(** Joining the parts with the separator gives the text back. *)
Lemma split_join m s : join [sep] (split sep m s) = s.
Proof.
  revert m. induction s as [|c s IH]; intros m; [reflexivity|].
  destruct m as [|m]; [reflexivity|]. simpl split.
  destruct (N.eqb_spec c sep) as [->|Hne].
  - specialize (IH m). pose proof (split_not_nil m s) as Hn.
    destruct (split sep m s) as [|q ps]; [congruence|].
    rewrite join_cons, IH. reflexivity.
  - specialize (IH (S m)). pose proof (split_not_nil (S m) s) as Hn.
    destruct (split sep (S m) s) as [|q [|q' ps]]; [congruence| |].
    + simpl in *. congruence.
    + rewrite join_cons in IH |- *. rewrite <- IH. reflexivity.
Qed.

(** Each of the first [m] parts is free of the separator; only the part
    after the last cut may contain it. *)
Lemma split_parts_no_sep m s i p :
  i < m -> split sep m s !! i = Some p -> ~ In sep p.
Proof.
  revert m i p. induction s as [|c s IH]; intros m i p Hi Hp.
  - destruct i; simpl in Hp; [|discriminate]. injection Hp as <-. intros [].
  - destruct m as [|m]; [lia|]. simpl split in Hp.
    destruct (N.eqb_spec c sep) as [->|Hne].
    + destruct i as [|i]; simpl in Hp.
      * injection Hp as <-. intros [].
      * apply (IH m i); [lia|exact Hp].
    + pose proof (split_not_nil (S m) s) as Hn.
      destruct (split sep (S m) s) as [|q ps] eqn:E; [congruence|].
      destruct i as [|i]; simpl in Hp.
      * injection Hp as <-. intros [Hc|Hq]; [congruence|].
        apply (IH (S m) 0 q); [lia|rewrite E; reflexivity|exact Hq].
      * apply (IH (S m) (S i)); [lia|rewrite E; exact Hp].
Qed.

(** A text without the separator is its own single part. *)
Lemma split_no_sep m s : ~ In sep s -> split sep m s = [s].
Proof.
  revert m. induction s as [|c s IH]; intros m Hs; [reflexivity|].
  destruct m as [|m]; [reflexivity|]. simpl.
  destruct (N.eqb_spec c sep) as [->|Hne]; [exfalso; apply Hs; left; reflexivity|].
  rewrite IH; [reflexivity|]. intros H. apply Hs. right. exact H.
Qed.

(** The first cut falls on the first occurrence of the separator. *)
Lemma split_first_cut m a b :
  ~ In sep a -> split sep (S m) (a ++ sep :: b) = a :: split sep m b.
Proof.
  induction a as [|c a IH]; intros Ha.
  - simpl. rewrite N.eqb_refl. reflexivity.
  - simpl. destruct (N.eqb_spec c sep) as [->|Hne];
      [exfalso; apply Ha; left; reflexivity|].
    change (split sep (S m) (a ++ sep :: b)) with (split sep (S m) (a ++ sep :: b)).
    rewrite IH; [reflexivity|]. intros H. apply Ha. right. exact H.
Qed.

Lemma first_occurrence s :
  In sep s -> exists a b, s = a ++ sep :: b /\ ~ In sep a.
Proof.
  induction s as [|c s IH]; [intros []|]. intros Hin.
  destruct (N.eq_dec c sep) as [->|Hne].
  - exists [], s. split; [reflexivity|intros []].
  - destruct Hin as [Hc|Hin]; [congruence|].
    destruct (IH Hin) as (a & b & -> & Ha).
    exists (c :: a), b. split; [reflexivity|].
    intros [H|H]; [congruence|exact (Ha H)].
Qed.

(** More than one part means that the text contains the separator. *)
Lemma split_single_iff m s :
  length (split sep (S m) s) < 2 <-> ~ In sep s.
Proof.
  split.
  - intros Hl Hin. destruct (first_occurrence s Hin) as (a & b & -> & Ha).
    rewrite split_first_cut in Hl by exact Ha.
    pose proof (split_length m b). simpl in Hl. lia.
  - intros Hs. rewrite split_no_sep by exact Hs. simpl. lia.
Qed.

End SplitFacts.

Lemma startswith_spec p s : startswith p s = true <-> exists t, s = p ++ t.
Proof.
  revert s. induction p as [|a p IH]; intros s; simpl.
  - split; eauto.
  - destruct s as [|b s].
    + split; [discriminate|]. intros [t Ht]. discriminate.
    + rewrite andb_true_iff, N.eqb_eq, IH. split.
      * intros [-> [t ->]]. eauto.
      * intros [t Ht]. injection Ht as -> ->. eauto.
Qed.

Lemma valid_scheme_not_nil url : valid_scheme url = true -> url <> [].
Proof. intros H ->. discriminate. Qed.

(** A URL that passes the scheme check begins with the letter [h]. *)
Lemma valid_scheme_head url : valid_scheme url = true -> head url = Some 104%N.
Proof.
  unfold valid_scheme. rewrite orb_true_iff, !startswith_spec.
  intros [[t ->]|[t ->]]; reflexivity.
Qed.


(** ** The layout of the success messages *)

Section Layout.

Variable json_dumps : value -> str.

Lemma get_reply_layout url r :
  get_reply_message json_dumps url (Returned r) =
    status_block (lit "GET") url r
      ++ headers_block
           (truncated headers_limit headers_truncated (response_headers_formatted json_dumps r))
      ++ json_body_block
           (truncated body_limit body_truncated (response_body_formatted json_dumps r)).
Proof.
  unfold get_reply_message, status_block, headers_block, json_body_block, truncated.
  change (lit " *GET Response from ") with (lit " *" ++ lit "GET" ++ lit " Response from ").
  flatten_app.
Qed.

Lemma post_put_reply_layout method url r :
  post_put_reply_message json_dumps method url (Returned r) =
    status_block method url r
      ++ json_body_block
           (truncated body_limit body_truncated (response_body_formatted json_dumps r)).
Proof.
  unfold post_put_reply_message, status_block, json_body_block, truncated.
  flatten_app.
Qed.

Lemma delete_reply_layout url r :
  delete_reply_message json_dumps url (Returned r) =
    status_block (lit "DELETE") url r
      ++ plain_body_block
           (match truncated body_limit body_truncated
                    (delete_response_body_formatted json_dumps r) with
            | [] => no_response_body
            | shown => shown
            end).
Proof.
  unfold delete_reply_message, status_block, plain_body_block, truncated.
  change (lit " *DELETE Response from ")
    with (lit " *" ++ lit "DELETE" ++ lit " Response from ").
  destruct (body_limit <? length (delete_response_body_formatted json_dumps r));
    [destruct (take body_limit (delete_response_body_formatted json_dumps r) ++ body_truncated)
    |destruct (delete_response_body_formatted json_dumps r)]; flatten_app.
Qed.

Lemma truncated_long limit marker s :
  limit < length s -> truncated limit marker s = take limit s ++ marker.
Proof. intros H. unfold truncated. apply Nat.ltb_lt in H. rewrite H. reflexivity. Qed.

Lemma truncated_short limit marker s :
  length s <= limit -> truncated limit marker s = s.
Proof. intros H. unfold truncated. apply Nat.ltb_ge in H. rewrite H. reflexivity. Qed.

End Layout.

(** ** Parsing of the POST and PUT commands *)

(** C1, as stated, fails: with two blanks between the command and the URL,
    splitting on whitespace yields the command and the URL, whereas the
    handler cuts at each of the two blanks, takes the empty text between them
    for the URL and answers that the URL is invalid. *)
Lemma post_put_split_not_on_whitespace :
  split_ws 2 Example.post_two_blanks = [lit "/post"; Example.url]
  /\ split 32%N 2 Example.post_two_blanks = [lit "/post"; []; Example.url]
  /\ handle_post Example.json_loads Example.json_dumps Example.post_two_blanks
      = invalid_url
  /\ spec_handle_post_put Example.json_loads Example.json_dumps
        Example.post_two_blanks (lit "POST")
      = post_put_send Example.json_loads Example.json_dumps
          (lit "POST") Example.url (lit "{}")
  /\ requests (run Example.timing_out
                 (handle_post Example.json_loads Example.json_dumps
                    Example.post_two_blanks)) = 0
  /\ requests (run Example.timing_out
                 (spec_handle_post_put Example.json_loads Example.json_dumps
                    Example.post_two_blanks (lit "POST"))) = 1.
Proof.
  split; [vm_compute; reflexivity|]. split; [vm_compute; reflexivity|].
  assert (handle_post Example.json_loads Example.json_dumps Example.post_two_blanks
          = invalid_url) as Hcode.
  { unfold handle_post, handle_post_put.
    replace (split 32%N 2 Example.post_two_blanks)
      with [lit "/post"; []; Example.url] by (vm_compute; reflexivity).
    reflexivity. }
  assert (spec_handle_post_put Example.json_loads Example.json_dumps
            Example.post_two_blanks (lit "POST")
          = post_put_send Example.json_loads Example.json_dumps
              (lit "POST") Example.url (lit "{}")) as Hspec.
  { unfold spec_handle_post_put.
    replace (split_ws 2 Example.post_two_blanks)
      with [lit "/post"; Example.url] by (vm_compute; reflexivity).
    replace (valid_scheme (nth 1 [lit "/post"; Example.url] []))
      with true by (vm_compute; reflexivity).
    reflexivity. }
  rewrite Hcode, Hspec. repeat split; vm_compute; reflexivity.
Qed.

(** The three outcomes of the parsing step of [handle_post_put]. *)
Lemma handle_post_put_cases json_loads json_dumps text method :
  handle_post_put json_loads json_dumps text method =
    match split 32%N 2 text with
    | [_; url] =>
        if valid_scheme url
        then post_put_send json_loads json_dumps method url (lit "{}")
        else invalid_url
    | [_; url; remainder] =>
        if valid_scheme url
        then post_put_send json_loads json_dumps method url remainder
        else invalid_url
    | _ => missing_url_post_put method
    end.
Proof.
  unfold handle_post_put. pose proof (split_length 32%N 2 text) as Hl.
  destruct (split 32%N 2 text) as [|cmd [|url [|remainder [|extra more]]]];
    simpl in Hl; try lia; try reflexivity.
  - simpl. destruct (valid_scheme url); reflexivity.
  - simpl. destruct (valid_scheme url); reflexivity.
Qed.

(** C1 (amended): [handle_post_put] cuts the text at its first two blanks
    (the character U+0020), which gives one to three parts that, joined by a
    blank, are the text again, the first two of them free of blanks.  With a
    single part, that is when the text contains no blank, it reports the
    missing URL; otherwise the second part is the
    URL and, once it passes the scheme check, the third part is the payload
    text, which is [{}] when there are only two parts. *)
Theorem handle_post_put_parts json_loads json_dumps text method :
  1 <= length (split 32%N 2 text) <= 3
  /\ join [32%N] (split 32%N 2 text) = text
  /\ Forall (fun p => ~ In 32%N p) (take 2 (split 32%N 2 text))
  /\ (length (split 32%N 2 text) < 2 <-> ~ In 32%N text)
  /\ handle_post_put json_loads json_dumps text method =
      match split 32%N 2 text with
      | [_; url] =>
          if valid_scheme url
          then post_put_send json_loads json_dumps method url (lit "{}")
          else invalid_url
      | [_; url; remainder] =>
          if valid_scheme url
          then post_put_send json_loads json_dumps method url remainder
          else invalid_url
      | _ => missing_url_post_put method
      end.
Proof.
  split; [apply split_length|]. split; [apply split_join|]. split.
  - apply Forall_forall. intros p Hp.
    destruct (proj1 (list_elem_of_lookup _ _) Hp) as [i Hi].
    assert (i < 2) as Hlt.
    { apply lookup_lt_Some in Hi. rewrite length_take in Hi. lia. }
    rewrite lookup_take_lt in Hi by exact Hlt.
    exact (split_parts_no_sep 32%N 2 text i p Hlt Hi).
  - split; [apply split_single_iff|apply handle_post_put_cases].
Qed.

(** ** Truncation of long responses *)

(** C2: a formatted body of more than 3500 characters is shown as its first
    3500 characters followed by the truncation marker, and one of at most
    3500 characters, so one of exactly 3500, is shown as it is, in the
    messages of all the handlers; the formatted headers of the GET message
    are cut to 1000 characters in the same way.  What is measured and cut is
    the formatted text: the re-serialized JSON value when the response is
    JSON, whatever the length of its raw text. *)
Theorem long_responses_truncated json_dumps url method r B D H :
  B = response_body_formatted json_dumps r ->
  D = delete_response_body_formatted json_dumps r ->
  H = response_headers_formatted json_dumps r ->
  (body_limit < length B ->
     get_reply_message json_dumps url (Returned r) =
       status_block (lit "GET") url r
         ++ headers_block (truncated headers_limit headers_truncated H)
         ++ json_body_block (take body_limit B ++ body_truncated)
     /\ post_put_reply_message json_dumps method url (Returned r) =
       status_block method url r
         ++ json_body_block (take body_limit B ++ body_truncated))
  /\ (length B <= body_limit ->
     get_reply_message json_dumps url (Returned r) =
       status_block (lit "GET") url r
         ++ headers_block (truncated headers_limit headers_truncated H)
         ++ json_body_block B
     /\ post_put_reply_message json_dumps method url (Returned r) =
       status_block method url r ++ json_body_block B)
  /\ (body_limit < length D ->
     delete_reply_message json_dumps url (Returned r) =
       status_block (lit "DELETE") url r
         ++ plain_body_block (take body_limit D ++ body_truncated))
  /\ (0 < length D <= body_limit ->
     delete_reply_message json_dumps url (Returned r) =
       status_block (lit "DELETE") url r ++ plain_body_block D)
  /\ (headers_limit < length H ->
     get_reply_message json_dumps url (Returned r) =
       status_block (lit "GET") url r
         ++ headers_block (take headers_limit H ++ headers_truncated)
         ++ json_body_block (truncated body_limit body_truncated B))
  /\ (length H <= headers_limit ->
     get_reply_message json_dumps url (Returned r) =
       status_block (lit "GET") url r
         ++ headers_block H
         ++ json_body_block (truncated body_limit body_truncated B))
  /\ (forall v, json r = Some v -> B = json_dumps v).
Proof.
  intros -> -> ->.
  rewrite get_reply_layout, post_put_reply_layout, delete_reply_layout.
  repeat split.
  - rewrite (truncated_long body_limit) by assumption. reflexivity.
  - rewrite (truncated_long body_limit) by assumption. reflexivity.
  - rewrite (truncated_short body_limit) by assumption. reflexivity.
  - rewrite (truncated_short body_limit) by assumption. reflexivity.
  - intros Hlen. rewrite (truncated_long body_limit) by assumption.
    destruct (take body_limit (delete_response_body_formatted json_dumps r)) eqn:E;
      [|reflexivity].
    assert (length (take body_limit (delete_response_body_formatted json_dumps r)) = 0)
      as E' by (rewrite E; reflexivity).
    rewrite length_take in E'. unfold body_limit in *. lia.
  - intros [Hpos Hlen]. rewrite (truncated_short body_limit) by assumption.
    destruct (delete_response_body_formatted json_dumps r);
      [simpl in Hpos; lia|reflexivity].
  - intros Hlen. rewrite (truncated_long headers_limit) by assumption. reflexivity.
  - intros Hlen. rewrite (truncated_short headers_limit) by assumption. reflexivity.
  - intros v Hv. unfold response_body_formatted. rewrite Hv. reflexivity.
Qed.

(** The boundary: a body of 3501 letters is cut to 3500 letters and marked,
    one of 3500 letters is shown whole; an array of 900 ones, 1801 characters
    as received and 4502 once formatted, is cut; and so is a header block of
    more than 1000 characters. *)
Lemma long_responses_truncated_witness :
  (get_reply_message Example.json_dumps Example.url (Returned (Example.letters 3501)) =
     status_block (lit "GET") Example.url (Example.letters 3501)
       ++ headers_block (truncated headers_limit headers_truncated (lit "{}"))
       ++ json_body_block (take body_limit (text (Example.letters 3501)) ++ body_truncated))
  /\ (get_reply_message Example.json_dumps Example.url (Returned (Example.letters 3500)) =
     status_block (lit "GET") Example.url (Example.letters 3500)
       ++ headers_block (truncated headers_limit headers_truncated (lit "{}"))
       ++ json_body_block (text (Example.letters 3500)))
  /\ (length (text (Example.ones 900)) = 1801
      /\ length (response_body_formatted Example.json_dumps (Example.ones 900)) = 4502
      /\ response_body_formatted Example.json_dumps (Example.ones 900)
         = Example.json_dumps (VList (repeat (VInt 1) 900))
      /\ post_put_reply_message Example.json_dumps (lit "POST") Example.url
           (Returned (Example.ones 900)) =
         status_block (lit "POST") Example.url (Example.ones 900)
           ++ json_body_block
                (take body_limit
                   (response_body_formatted Example.json_dumps (Example.ones 900))
                   ++ body_truncated))
  /\ (delete_reply_message Example.json_dumps Example.url (Returned (Example.letters 3501)) =
     status_block (lit "DELETE") Example.url (Example.letters 3501)
       ++ plain_body_block (take body_limit (text (Example.letters 3501)) ++ body_truncated))
  /\ (delete_reply_message Example.json_dumps Example.url (Returned (Example.letters 3500)) =
     status_block (lit "DELETE") Example.url (Example.letters 3500)
       ++ plain_body_block (text (Example.letters 3500)))
  /\ (get_reply_message Example.json_dumps Example.url
        (Returned (Example.long_header 1000)) =
     status_block (lit "GET") Example.url (Example.long_header 1000)
       ++ headers_block
            (take headers_limit
               (response_headers_formatted Example.json_dumps
                  (Example.long_header 1000))
               ++ headers_truncated)
       ++ json_body_block (truncated body_limit body_truncated (lit "ok")))
  /\ (get_reply_message Example.json_dumps Example.url
        (Returned (Example.long_header 5)) =
     status_block (lit "GET") Example.url (Example.long_header 5)
       ++ headers_block
            (response_headers_formatted Example.json_dumps (Example.long_header 5))
       ++ json_body_block (truncated body_limit body_truncated (lit "ok"))).
Proof.
  pose proof (fun a b => proj1 (Nat.ltb_lt a b)) as lt.
  pose proof (fun a b => proj1 (Nat.leb_le a b)) as le.
  pose proof (fun r => long_responses_truncated Example.json_dumps Example.url
                         (lit "POST") r _ _ _ eq_refl eq_refl eq_refl) as T.
  split; [|split; [|split; [|split; [|split; [|split]]]]].
  - destruct (T (Example.letters 3501)) as (Hlong & _).
    refine (proj1 (Hlong _)). apply lt. vm_compute. reflexivity.
  - destruct (T (Example.letters 3500)) as (_ & Hshort & _).
    refine (proj1 (Hshort _)). apply le. vm_compute. reflexivity.
  - split; [vm_compute; reflexivity|]. split; [vm_compute; reflexivity|].
    destruct (T (Example.ones 900)) as (Hlong & _ & _ & _ & _ & _ & Hjson).
    split; [exact (Hjson _ eq_refl)|].
    refine (proj2 (Hlong _)). apply lt. vm_compute. reflexivity.
  - destruct (T (Example.letters 3501)) as (_ & _ & Hlong & _).
    refine (Hlong _). apply lt. vm_compute. reflexivity.
  - destruct (T (Example.letters 3500)) as (_ & _ & _ & Hshort & _).
    refine (Hshort (conj _ _)); [apply lt|apply le]; vm_compute; reflexivity.
  - destruct (T (Example.long_header 1000)) as (_ & _ & _ & _ & Hlong & _).
    refine (Hlong _). apply lt. vm_compute. reflexivity.
  - destruct (T (Example.long_header 5)) as (_ & _ & _ & _ & _ & Hshort & _).
    refine (Hshort _). apply le. vm_compute. reflexivity.
Defined.

(** ** Validation of the URL *)


Lemma get_request_urls json_dumps net args :
  Forall scheme_validated (request_urls (run net (handle_get json_dumps args))).
Proof.
  unfold handle_get. destruct args as [|url rest]; [constructor|].
  destruct (valid_scheme url) eqn:E; simpl; [|constructor].
  constructor; [|constructor]. split; [exact E|exact (valid_scheme_not_nil url E)].
Qed.

Lemma delete_request_urls json_dumps net args :
  Forall scheme_validated (request_urls (run net (handle_delete json_dumps args))).
Proof.
  unfold handle_delete. destruct args as [|url rest]; [constructor|].
  destruct (valid_scheme url) eqn:E; simpl; [|constructor].
  constructor; [|constructor]. split; [exact E|exact (valid_scheme_not_nil url E)].
Qed.

Lemma post_put_send_request_urls json_loads json_dumps net method url payload :
  valid_scheme url = true ->
  Forall scheme_validated
    (request_urls (run net (post_put_send json_loads json_dumps method url payload))).
Proof.
  intros E. unfold post_put_send.
  destruct (json_loads payload) as [v|e]; [|constructor].
  destruct (eqb method (lit "POST")); [|destruct (eqb method (lit "PUT"))]; simpl;
    repeat constructor; auto using valid_scheme_not_nil.
Qed.

Lemma post_put_request_urls json_loads json_dumps net text method :
  Forall scheme_validated
    (request_urls (run net (handle_post_put json_loads json_dumps text method))).
Proof.
  rewrite handle_post_put_cases.
  destruct (split 32%N 2 text) as [|cmd [|url [|remainder [|extra more]]]];
    try constructor;
    (destruct (valid_scheme url) eqn:E;
     [apply post_put_send_request_urls; exact E|constructor]).
Qed.

(** C3: when the URL argument of a command does not begin with [http://] or
    [https://], the handler of each of the four commands only replies that
    the URL is invalid, so that no request is made; and whatever the input,
    the URL of a request that a handler performs has passed the scheme check
    and is not empty. *)
Theorem invalid_url_rejected json_loads json_dumps net url args text args' text' :
  valid_scheme url = false ->
  head args = Some url ->
  split 32%N 2 text !! 1 = Some url ->
  (handle_get json_dumps args = invalid_url
   /\ handle_delete json_dumps args = invalid_url
   /\ handle_post json_loads json_dumps text = invalid_url
   /\ handle_put json_loads json_dumps text = invalid_url)
  /\ run net invalid_url = [SentReply invalid_url_message None]
  /\ requests (run net invalid_url) = 0
  /\ (Forall scheme_validated (request_urls (run net (handle_get json_dumps args')))
      /\ Forall scheme_validated
           (request_urls (run net (handle_delete json_dumps args')))
      /\ Forall scheme_validated
           (request_urls (run net (handle_post json_loads json_dumps text')))
      /\ Forall scheme_validated
           (request_urls (run net (handle_put json_loads json_dumps text')))).
Proof.
  intros Hbad Hargs Htext.
  split; [|split; [reflexivity|split; [reflexivity|]]].
  - destruct args as [|u rest]; [discriminate|]. injection Hargs as ->.
    unfold handle_get, handle_delete, handle_post, handle_put.
    rewrite !handle_post_put_cases, Hbad.
    pose proof (split_length 32%N 2 text) as Hl.
    destruct (split 32%N 2 text) as [|cmd [|u [|remainder [|extra more]]]];
      try discriminate; simpl in Hl; try lia;
      injection Htext as ->; rewrite Hbad; auto.
  - repeat split;
      [apply get_request_urls|apply delete_request_urls
      |apply post_put_request_urls|apply post_put_request_urls].
Qed.

Lemma invalid_url_rejected_witness :
  (handle_get Example.json_dumps [lit "example.com"] = invalid_url
   /\ handle_delete Example.json_dumps [lit "example.com"] = invalid_url
   /\ handle_post Example.json_loads Example.json_dumps (lit "/post example.com {}")
      = invalid_url
   /\ handle_put Example.json_loads Example.json_dumps (lit "/post example.com {}")
      = invalid_url)
  /\ request_urls (run Example.timing_out
                     (handle_get Example.json_dumps [Example.url])) = [Example.url].
Proof.
  split.
  - apply (invalid_url_rejected Example.json_loads Example.json_dumps
             Example.timing_out (lit "example.com") [lit "example.com"]
             (lit "/post example.com {}") [] []); vm_compute; reflexivity.
  - vm_compute. reflexivity.
Defined.

(** ** Replies per invocation *)








(** ** The blocks of a success message *)


(** ** The placeholder of an empty DELETE response *)

(** C6: for a DELETE response without content, the body block of the message
    shows the placeholder [(No response body)], and so the message is not the
    one with an empty body block; a body that is not empty is shown itself,
    cut to the display limit. *)
Theorem delete_no_body_placeholder json_dumps url r r' :
  wf_response r ->
  content r = [] ->
  delete_response_body_formatted json_dumps r' <> [] ->
  delete_reply_message json_dumps url (Returned r) =
    status_block (lit "DELETE") url r ++ plain_body_block no_response_body
  /\ delete_reply_message json_dumps url (Returned r) <>
    status_block (lit "DELETE") url r ++ plain_body_block []
  /\ delete_reply_message json_dumps url (Returned r') =
    status_block (lit "DELETE") url r'
      ++ plain_body_block
           (truncated body_limit body_truncated
              (delete_response_body_formatted json_dumps r')).
Proof.
  intros Hwf Hc Hbody.
  assert (delete_reply_message json_dumps url (Returned r) =
          status_block (lit "DELETE") url r ++ plain_body_block no_response_body) as E.
  { rewrite delete_reply_layout. unfold delete_response_body_formatted.
    rewrite Hc, (Hwf Hc). reflexivity. }
  split; [exact E|]. split.
  - rewrite E. intros H. apply app_inv_head in H.
    unfold plain_body_block in H. rewrite !app_assoc in H.
    do 2 apply app_inv_tail in H. apply app_inv_head in H. discriminate.
  - rewrite delete_reply_layout.
    destruct (truncated body_limit body_truncated
                (delete_response_body_formatted json_dumps r')) eqn:T;
      [|reflexivity].
    exfalso. unfold truncated in T.
    destruct (body_limit <? length (delete_response_body_formatted json_dumps r'));
      [|contradiction].
    apply app_eq_nil in T as [_ T]. discriminate.
Qed.

Lemma delete_no_body_placeholder_witness :
  delete_reply_message Example.json_dumps Example.url (Returned Example.no_content) =
    status_block (lit "DELETE") Example.url Example.no_content
      ++ plain_body_block no_response_body
  /\ delete_reply_message Example.json_dumps Example.url
       (Returned Example.empty_json_string) =
     status_block (lit "DELETE") Example.url Example.empty_json_string
       ++ plain_body_block [34%N; 34%N].
Proof.
  destruct (delete_no_body_placeholder Example.json_dumps Example.url
              Example.no_content Example.empty_json_string)
    as (Hnone & _ & Hshown).
  - intros _. reflexivity.
  - reflexivity.
  - vm_compute. discriminate.
  - split; [exact Hnone|]. rewrite Hshown. vm_compute. reflexivity.
Defined.

(** ** The JSON payload of POST and PUT *)

Lemma handle_post_put_valid json_loads json_dumps text method cmd url rest :
  split 32%N 2 text = cmd :: url :: rest ->
  valid_scheme url = true ->
  handle_post_put json_loads json_dumps text method =
    post_put_send json_loads json_dumps method url (payload_text rest).
Proof.
  intros Hs Hv. rewrite handle_post_put_cases.
  pose proof (split_length 32%N 2 text) as Hl. rewrite Hs in *.
  destruct rest as [|remainder [|extra more]]; simpl in Hl; try lia;
    rewrite Hv; reflexivity.
Qed.

Lemma handle_post_put_invalid json_loads json_dumps text method cmd url rest :
  split 32%N 2 text = cmd :: url :: rest ->
  valid_scheme url = false ->
  handle_post_put json_loads json_dumps text method = invalid_url.
Proof.
  intros Hs Hv. rewrite handle_post_put_cases.
  pose proof (split_length 32%N 2 text) as Hl. rewrite Hs in *.
  destruct rest as [|remainder [|extra more]]; simpl in Hl; try lia;
    rewrite Hv; reflexivity.
Qed.






(** ** Malformed payloads *)



(** C10: when the URL of a POST or PUT command fails the scheme check, the
    handler replies that the URL is invalid and stops: the outcome is the
    same whatever [json.loads] would make of the payload text, so that a
    command whose payload is malformed as well is answered with the URL
    error alone, which is not the message of a JSON error. *)
Theorem invalid_url_precedes_json json_loads json_loads' json_dumps net method
    text cmd url rest e :
  split 32%N 2 text = cmd :: url :: rest ->
  valid_scheme url = false ->
  json_loads (payload_text rest) = inr e ->
  run net (handle_post_put json_loads json_dumps text method) =
    [SentReply invalid_url_message None]
  /\ handle_post_put json_loads' json_dumps text method =
     handle_post_put json_loads json_dumps text method
  /\ invalid_url_message <> invalid_json_message method e.
Proof.
  intros Hs Hv He.
  rewrite !(handle_post_put_invalid _ _ text _ cmd url rest Hs Hv).
  repeat split. intros H. apply (f_equal (take 9)) in H. discriminate.
Qed.

(** [/put badurl oops]: both the URL and the payload are wrong. *)
Lemma invalid_url_precedes_json_witness :
  run Example.timing_out
    (handle_put Example.json_loads Example.json_dumps (lit "/put badurl oops"))
  = [SentReply (lit "Invalid URL. Please include http:// or https://") None].
Proof.
  apply (invalid_url_precedes_json Example.json_loads Example.json_loads
           Example.json_dumps Example.timing_out (lit "PUT")
           (lit "/put badurl oops") (lit "/put") (lit "badurl") [lit "oops"]
           {| err_msg := lit "Expecting value"; err_doc := lit "oops"; err_pos := 0 |});
    vm_compute; reflexivity.
Defined.

(** ** Commands without a URL *)

Lemma split_ws_blanks m s : Forall blank s -> split_ws m s = [].
Proof.
  induction 1 as [|c s Hc _ IH]; [reflexivity|].
  simpl. rewrite Hc. exact IH.
Qed.

Lemma word_ws_blanks m acc s : Forall blank s -> word_ws m acc s = [rev acc].
Proof.
  intros Hs. destruct Hs as [|c s Hc Hs]; [reflexivity|].
  simpl. rewrite Hc, (split_ws_blanks m s Hs). reflexivity.
Qed.

Lemma word_ws_solid m acc w s :
  Forall solid w -> word_ws m acc (w ++ s) = word_ws m (rev w ++ acc) s.
Proof.
  intros Hw. revert acc. induction Hw as [|c w Hc _ IH]; intros acc; [reflexivity|].
  simpl. rewrite Hc, IH, <- app_assoc. reflexivity.
Qed.

(** A command name followed by blanks only has no argument. *)
Lemma context_args_none cmd blanks :
  Forall solid cmd -> Forall blank blanks -> context_args (cmd ++ blanks) = [].
Proof.
  intros Hc Hb. unfold context_args, words.
  destruct Hc as [|c cmd Hc Hcmd].
  - simpl app. rewrite (split_ws_blanks _ blanks Hb). reflexivity.
  - simpl. rewrite Hc, (word_ws_solid _ _ cmd blanks Hcmd).
    rewrite (word_ws_blanks _ _ blanks Hb). reflexivity.
Qed.

Lemma solid_not_space w : Forall solid w -> ~ In 32%N w.
Proof.
  intros Hw Hin. apply (proj1 (List.Forall_forall _ _) Hw) in Hin. discriminate.
Qed.

Lemma join_head sp p ps : exists t, join sp (p :: ps) = p ++ t.
Proof.
  destruct ps as [|q ps]; [exists []; symmetry; apply app_nil_r|].
  exists (sp ++ join sp (q :: ps)). reflexivity.
Qed.

(** The part cut from the front of a run of blanks is no valid URL. *)
Lemma split_blanks_invalid m s p ps :
  Forall blank s -> split 32%N m s = p :: ps -> valid_scheme p = false.
Proof.
  intros Hs Hp. destruct (valid_scheme p) eqn:E; [exfalso|reflexivity].
  apply valid_scheme_head in E. destruct p as [|c p]; [discriminate|].
  injection E as ->.
  pose proof (split_join 32%N m s) as Hj. rewrite Hp in Hj.
  destruct (join_head [32%N] (104%N :: p) ps) as [t Ht].
  pose proof (eq_trans (eq_sym Hj) Ht) as Hst. rewrite Hst in Hs.
  inversion Hs as [|c s' Hc _]. discriminate.
Qed.

(** C9, as stated, fails: [/post] followed by a blank has no URL token after
    the command name, yet the handler takes the empty text after the blank
    for the URL and answers that the URL is invalid. *)
Lemma post_trailing_blank_reports_invalid_url :
  words (lit "/post ") = [lit "/post"]
  /\ handle_post Example.json_loads Example.json_dumps (lit "/post ") = invalid_url
  /\ run Example.timing_out
       (handle_post Example.json_loads Example.json_dumps (lit "/post "))
     <> run Example.timing_out (missing_url_post_put (lit "POST")).
Proof.
  split; [vm_compute; reflexivity|].
  assert (handle_post Example.json_loads Example.json_dumps (lit "/post ")
          = invalid_url) as E.
  { apply (handle_post_put_invalid _ _ _ _ (lit "/post") [] []);
      vm_compute; reflexivity. }
  split; [exact E|]. rewrite E. vm_compute. discriminate.
Qed.

(** C9 (amended): for a command text that is a command name followed by
    nothing but whitespace, [/get] and [/delete], whose arguments are then
    empty, report the missing URL, and so do [/post] and [/put] when no
    blank (U+0020) follows the command name; when a blank does follow,
    [/post] and [/put] take the text between the first two blanks for the
    URL and report an invalid URL.  No request is made in any of these
    cases. *)
Theorem missing_url_reported json_loads json_dumps net method cmd blanks :
  Forall solid cmd ->
  Forall blank blanks ->
  (handle_get json_dumps (context_args (cmd ++ blanks)) = missing_url_get
   /\ handle_delete json_dumps (context_args (cmd ++ blanks)) = missing_url_delete)
  /\ (~ In 32%N blanks ->
      handle_post_put json_loads json_dumps (cmd ++ blanks) method
      = missing_url_post_put method)
  /\ (In 32%N blanks ->
      handle_post_put json_loads json_dumps (cmd ++ blanks) method = invalid_url)
  /\ requests (run net (handle_get json_dumps (context_args (cmd ++ blanks)))) = 0
  /\ requests (run net (handle_delete json_dumps (context_args (cmd ++ blanks)))) = 0
  /\ requests (run net (handle_post_put json_loads json_dumps (cmd ++ blanks) method))
     = 0.
Proof.
  intros Hc Hb. rewrite (context_args_none cmd blanks Hc Hb).
  pose proof (solid_not_space cmd Hc) as Hcmd.
  assert (~ In 32%N blanks ->
          handle_post_put json_loads json_dumps (cmd ++ blanks) method
          = missing_url_post_put method) as Hmissing.
  { intros Hn. rewrite handle_post_put_cases, split_no_sep; [reflexivity|].
    intros Hin. apply in_app_or in Hin as [Hin|Hin]; auto. }
  assert (In 32%N blanks ->
          handle_post_put json_loads json_dumps (cmd ++ blanks) method = invalid_url)
    as Hinvalid.
  { intros Hin. destruct (first_occurrence 32%N blanks Hin) as (b1 & b2 & -> & Hb1).
    apply Forall_app in Hb as [_ Hb2]. inversion Hb2 as [|c s _ Hb2' E]. subst c s.
    pose proof (split_not_nil 32%N 1 b2) as Hne.
    destruct (split 32%N 1 b2) as [|p ps] eqn:Hp; [congruence|].
    apply (handle_post_put_invalid _ _ _ _ (cmd ++ b1) p ps).
    - rewrite app_assoc, split_first_cut, Hp; [reflexivity|].
      intros H. apply in_app_or in H as [H|H]; auto.
    - exact (split_blanks_invalid 1 b2 p ps Hb2' Hp). }
  split; [split; reflexivity|]. split; [exact Hmissing|]. split; [exact Hinvalid|].
  split; [reflexivity|]. split; [reflexivity|].
  destruct (in_dec N.eq_dec 32%N blanks) as [Hin|Hn];
    [rewrite (Hinvalid Hin)|rewrite (Hmissing Hn)]; reflexivity.
Qed.

(** [/delete] alone, [/put] followed by a line break, and [/put] followed by
    a blank. *)
Lemma missing_url_reported_witness :
  handle_delete Example.json_dumps (context_args (lit "/delete")) = missing_url_delete
  /\ handle_put Example.json_loads Example.json_dumps (lit "/put" ++ nl)
     = missing_url_post_put (lit "PUT")
  /\ handle_put Example.json_loads Example.json_dumps (lit "/put ") = invalid_url.
Proof.
  assert (forall w, forallb (fun c => negb (isspace c)) w = true -> Forall solid w)
    as Hsolid.
  { intros w Hw. apply List.Forall_forall. intros c Hin.
    apply (proj1 (forallb_forall _ _) Hw) in Hin. apply negb_true_iff. exact Hin. }
  assert (forall w, forallb isspace w = true -> Forall blank w) as Hblank.
  { intros w Hw. apply List.Forall_forall. intros c Hin.
    exact (proj1 (forallb_forall _ _) Hw c Hin). }
  split; [|split].
  - destruct (missing_url_reported Example.json_loads Example.json_dumps
                Example.timing_out (lit "PUT") (lit "/delete") [])
      as ((_ & Hdelete) & _); [apply Hsolid; reflexivity|constructor|].
    rewrite app_nil_r in Hdelete. exact Hdelete.
  - destruct (missing_url_reported Example.json_loads Example.json_dumps
                Example.timing_out (lit "PUT") (lit "/put") nl)
      as (_ & Hmissing & _); [apply Hsolid; reflexivity|apply Hblank; reflexivity|].
    apply Hmissing. intros [H|[]]. discriminate.
  - destruct (missing_url_reported Example.json_loads Example.json_dumps
                Example.timing_out (lit "PUT") (lit "/put") (lit " "))
      as (_ & _ & Hinvalid & _); [apply Hsolid; reflexivity|apply Hblank; reflexivity|].
    apply Hinvalid. left. reflexivity.
Defined.

(** ** When a request is made *)

Lemma valid_scheme_iff url :
  valid_scheme url = true <->
  exists t, url = http_prefix ++ t \/ url = https_prefix ++ t.
Proof.
  unfold valid_scheme. rewrite orb_true_iff, !startswith_spec. split.
  - intros [[t ->]|[t ->]]; exists t; auto.
  - intros [t [->| ->]]; [left|right]; exists t; reflexivity.
Qed.

(** X1: [/get] and [/delete] perform a request exactly when there is a first
    argument that begins with [http://] or [https://], whatever follows the
    prefix and whatever further arguments there are; the request is then made
    with the method of the command to that first argument, without a body and
    with a timeout of 15 seconds. *)
Theorem get_delete_request_iff json_dumps net args :
  (requests (run net (handle_get json_dumps args)) = 1 <->
     exists url rest t,
       args = url :: rest /\ (url = http_prefix ++ t \/ url = https_prefix ++ t))
  /\ (requests (run net (handle_delete json_dumps args)) = 1 <->
     exists url rest t,
       args = url :: rest /\ (url = http_prefix ++ t \/ url = https_prefix ++ t))
  /\ (forall url rest, args = url :: rest -> valid_scheme url = true ->
       requests_of (run net (handle_get json_dumps args))
         = [SentRequest GET url None 15]
       /\ requests_of (run net (handle_delete json_dumps args))
         = [SentRequest DELETE url None 15]).
Proof.
  assert (forall h : list str -> Prog,
             (forall url rest, valid_scheme url = true ->
                               requests (run net (h (url :: rest))) = 1) ->
             (forall url rest, valid_scheme url = false ->
                               requests (run net (h (url :: rest))) = 0) ->
             requests (run net (h [])) = 0 ->
             (requests (run net (h args)) = 1 <->
              exists url rest t,
                args = url :: rest
                /\ (url = http_prefix ++ t \/ url = https_prefix ++ t))) as Hiff.
  { intros h Hyes Hno Hnil. split.
    - intros Hr. destruct args as [|url rest]; [rewrite Hnil in Hr; discriminate|].
      destruct (valid_scheme url) eqn:E; [|rewrite (Hno url rest E) in Hr; discriminate].
      apply valid_scheme_iff in E as [t Ht]. exists url, rest, t. auto.
    - intros (url & rest & t & -> & Ht). apply Hyes, valid_scheme_iff. eauto. }
  split; [|split].
  - apply (Hiff (handle_get json_dumps)); intros; unfold handle_get;
      try rewrite H; reflexivity.
  - apply (Hiff (handle_delete json_dumps)); intros; unfold handle_delete;
      try rewrite H; reflexivity.
  - intros url rest -> E. unfold handle_get, handle_delete. rewrite E.
    split; reflexivity.
Qed.

(** The bare prefix is requested; a prefix in capitals is not. *)
Lemma get_delete_request_iff_witness :
  requests_of (run Example.timing_out
                 (handle_get Example.json_dumps [lit "http://"; lit "ignored"]))
  = [SentRequest GET (lit "http://") None 15]
  /\ requests (run Example.timing_out
                 (handle_delete Example.json_dumps [lit "HTTPS://EXAMPLE.COM"])) <> 1.
Proof.
  split.
  - destruct (get_delete_request_iff Example.json_dumps Example.timing_out
                [lit "http://"; lit "ignored"]) as (_ & _ & Hreq).
    exact (proj1 (Hreq (lit "http://") [lit "ignored"] eq_refl eq_refl)).
  - destruct (get_delete_request_iff Example.json_dumps Example.timing_out
                [lit "HTTPS://EXAMPLE.COM"]) as (_ & Hdelete & _).
    intros H. apply Hdelete in H as (url & rest & t & E & Ht).
    injection E as <- _. destruct Ht as [Ht|Ht]; discriminate.
Defined.

(** The three traces of the second half of [handle_post_put]. *)
Lemma run_post_put_send_cases json_loads json_dumps net method url payload :
  run net (post_put_send json_loads json_dumps method url payload) =
    match json_loads payload with
    | inr e => [SentReply (invalid_json_message method e) None]
    | inl v =>
        match method_of method with
        | Some m =>
            [SentReply (sending_notice method url payload) None;
             SentRequest m url (Some v) 15;
             SentReply (post_put_reply_message json_dumps method url
                          (net m url (Some v))) MarkdownV2]
        | None =>
            [SentReply (sending_notice method url payload) None;
             SentReply unsupported_method_message None]
        end
    end.
Proof.
  unfold post_put_send, method_of.
  destruct (json_loads payload) as [v|e]; [|reflexivity].
  destruct (eqb method (lit "POST")); [reflexivity|].
  destruct (eqb method (lit "PUT")); reflexivity.
Qed.

(** X2: [handle_post_put] performs a request exactly when the text has at
    least two parts, the second passes the scheme check, [json.loads] accepts
    the payload text and the method is [POST] or [PUT] to the letter; the
    request then goes to the second part, which contains no blank, with the
    parsed payload, whatever JSON value it is, and a timeout of 15 seconds. *)
Theorem post_put_request_iff json_loads json_dumps net text method :
  (requests (run net (handle_post_put json_loads json_dumps text method)) = 1 <->
     exists cmd url rest v m,
       split 32%N 2 text = cmd :: url :: rest
       /\ valid_scheme url = true
       /\ json_loads (payload_text rest) = inl v
       /\ method_of method = Some m)
  /\ (forall cmd url rest v m,
       split 32%N 2 text = cmd :: url :: rest ->
       valid_scheme url = true ->
       json_loads (payload_text rest) = inl v ->
       method_of method = Some m ->
       requests_of (run net (handle_post_put json_loads json_dumps text method))
         = [SentRequest m url (Some v) 15]
       /\ ~ In 32%N url).
Proof.
  split; [split|].
  - intros Hr.
    destruct (split 32%N 2 text) as [|cmd [|url rest]] eqn:Hs;
      try (rewrite handle_post_put_cases, Hs in Hr; discriminate).
    destruct (valid_scheme url) eqn:E;
      [|rewrite (handle_post_put_invalid _ _ _ _ cmd url rest Hs E) in Hr;
        discriminate].
    rewrite (handle_post_put_valid _ _ _ _ cmd url rest Hs E) in Hr.
    rewrite run_post_put_send_cases in Hr.
    destruct (json_loads (payload_text rest)) as [v|e] eqn:Hv; [|discriminate].
    destruct (method_of method) as [m|] eqn:Hm; [|discriminate].
    exists cmd, url, rest, v, m. auto.
  - intros (cmd & url & rest & v & m & Hs & E & Hv & Hm).
    rewrite (handle_post_put_valid _ _ _ _ cmd url rest Hs E).
    rewrite run_post_put_send_cases, Hv, Hm. reflexivity.
  - intros cmd url rest v m Hs E Hv Hm. split.
    + rewrite (handle_post_put_valid _ _ _ _ cmd url rest Hs E).
      rewrite run_post_put_send_cases, Hv, Hm. reflexivity.
    + apply (split_parts_no_sep 32%N 2 text 1 url); [lia|].
      rewrite Hs. reflexivity.
Qed.

(** [/put] with the default payload: the empty object is sent to the URL. *)
Lemma post_put_request_iff_witness :
  requests_of (run Example.timing_out
                 (handle_put Example.json_loads Example.json_dumps
                    (lit "/put https://example.com/thing")))
  = [SentRequest PUT Example.url (Some (VDict [])) 15]
  /\ ~ In 32%N Example.url.
Proof.
  destruct (post_put_request_iff Example.json_loads Example.json_dumps
              Example.timing_out (lit "/put https://example.com/thing") (lit "PUT"))
    as (_ & Hreq).
  apply (Hreq (lit "/put") Example.url [] (VDict []) PUT); reflexivity.
Defined.

(** X3: with a method other than [POST] or [PUT] to the letter,
    [handle_post_put] makes no request on any text; when the command is
    otherwise in order it sends the notice and then only the reply that the
    method is unsupported, and no reply with a format mode. *)
Theorem unsupported_method_no_request json_loads json_dumps net text method
    cmd url rest v :
  method_of method = None ->
  split 32%N 2 text = cmd :: url :: rest ->
  valid_scheme url = true ->
  json_loads (payload_text rest) = inl v ->
  run net (handle_post_put json_loads json_dumps text method) =
    [SentReply (sending_notice method url (payload_text rest)) None;
     SentReply unsupported_method_message None]
  /\ forall text',
       requests (run net (handle_post_put json_loads json_dumps text' method)) = 0.
Proof.
  intros Hm Hs E Hv. split.
  - rewrite (handle_post_put_valid _ _ _ _ cmd url rest Hs E).
    rewrite run_post_put_send_cases, Hv, Hm. reflexivity.
  - intros text'.
    destruct (split 32%N 2 text') as [|cmd' [|url' rest']] eqn:Hs';
      try (rewrite handle_post_put_cases, Hs'; reflexivity).
    destruct (valid_scheme url') eqn:E';
      [|rewrite (handle_post_put_invalid _ _ _ _ cmd' url' rest' Hs' E');
        reflexivity].
    rewrite (handle_post_put_valid _ _ _ _ cmd' url' rest' Hs' E').
    rewrite run_post_put_send_cases, Hm.
    destruct (json_loads (payload_text rest')); reflexivity.
Qed.

(** The method in small letters is not supported. *)
Lemma unsupported_method_no_request_witness :
  run Example.timing_out
    (handle_post_put Example.json_loads Example.json_dumps
       (lit "/post https://example.com/thing {}") (lit "post"))
  = [SentReply (sending_notice (lit "post") Example.url (lit "{}")) None;
     SentReply (lit "Unsupported method internally.") None].
Proof.
  apply (unsupported_method_no_request Example.json_loads Example.json_dumps
           Example.timing_out (lit "/post https://example.com/thing {}")
           (lit "post") (lit "/post") Example.url [lit "{}"] (VDict []));
    reflexivity.
Defined.

(** X4: a text made of a command and a URL, both free of blanks, and of a
    payload, with one blank between them, is taken apart again as it was put
    together: the payload reaches the JSON validation unchanged, blanks, line
    breaks and all, also when it is empty; without the payload part the
    payload is [{}]. *)
Theorem post_put_text_parts json_loads json_dumps method cmd url payload :
  ~ In 32%N cmd ->
  ~ In 32%N url ->
  handle_post_put json_loads json_dumps (cmd ++ [32%N] ++ url ++ [32%N] ++ payload)
    method
  = (if valid_scheme url
     then post_put_send json_loads json_dumps method url payload
     else invalid_url)
  /\ handle_post_put json_loads json_dumps (cmd ++ [32%N] ++ url) method
  = (if valid_scheme url
     then post_put_send json_loads json_dumps method url (lit "{}")
     else invalid_url).
Proof.
  intros Hc Hu. rewrite !handle_post_put_cases. split.
  - change (cmd ++ [32%N] ++ url ++ [32%N] ++ payload)
      with (cmd ++ 32%N :: (url ++ 32%N :: payload)).
    rewrite (split_first_cut 32%N 1 cmd _ Hc), (split_first_cut 32%N 0 url _ Hu).
    destruct payload; reflexivity.
  - change (cmd ++ [32%N] ++ url) with (cmd ++ 32%N :: url).
    rewrite (split_first_cut 32%N 1 cmd _ Hc), (split_no_sep 32%N 1 url Hu).
    reflexivity.
Qed.

(** A blank after the URL makes the payload the empty text, which is no JSON
    document, rather than the default. *)
Lemma post_put_text_parts_witness :
  run Example.timing_out
    (handle_post Example.json_loads Example.json_dumps
       (lit "/post" ++ [32%N] ++ Example.url ++ [32%N] ++ []))
  = [SentReply
       (invalid_json_message (lit "POST")
          {| err_msg := lit "Expecting value"; err_doc := []; err_pos := 0 |}) None]
  /\ handle_post Example.json_loads Example.json_dumps
       (lit "/post" ++ [32%N] ++ Example.url ++ [32%N] ++ Example.doc_spaced)
     = post_put_send Example.json_loads Example.json_dumps (lit "POST")
         Example.url Example.doc_spaced.
Proof.
  assert (forall w, existsb (N.eqb 32) w = false -> ~ In 32%N w) as Hfree.
  { intros w Hw Hin.
    assert (existsb (N.eqb 32) w = true) as Ht
      by (apply existsb_exists; exists 32%N; split; [exact Hin|reflexivity]).
    congruence. }
  split.
  - refine (eq_trans
              (f_equal (run Example.timing_out)
                 (proj1 (post_put_text_parts Example.json_loads Example.json_dumps
                           (lit "POST") (lit "/post") Example.url []
                           (Hfree (lit "/post") eq_refl)
                           (Hfree Example.url eq_refl)))) _).
    vm_compute. reflexivity.
  - exact (proj1 (post_put_text_parts Example.json_loads Example.json_dumps
                    (lit "POST") (lit "/post") Example.url Example.doc_spaced
                    (Hfree (lit "/post") eq_refl) (Hfree Example.url eq_refl))).
Defined.

(** ** The messages after a request *)

Section Kinds.

Variable json_dumps : value -> str.





End Kinds.



(** X6: the message of a failed request keeps what failed: for a given URL
    (and method), two errors with different texts give different messages,
    and the timeout messages of two different URLs differ. *)
Theorem failure_detail_kept json_dumps method url url' e e' :
  (e <> e' ->
   get_reply_message json_dumps url (RaisedRequestException e)
     <> get_reply_message json_dumps url (RaisedRequestException e')
   /\ get_reply_message json_dumps url (RaisedException e)
     <> get_reply_message json_dumps url (RaisedException e')
   /\ post_put_reply_message json_dumps method url (RaisedRequestException e)
     <> post_put_reply_message json_dumps method url (RaisedRequestException e')
   /\ post_put_reply_message json_dumps method url (RaisedException e)
     <> post_put_reply_message json_dumps method url (RaisedException e')
   /\ delete_reply_message json_dumps url (RaisedRequestException e)
     <> delete_reply_message json_dumps url (RaisedRequestException e')
   /\ delete_reply_message json_dumps url (RaisedException e)
     <> delete_reply_message json_dumps url (RaisedException e'))
  /\ (url <> url' ->
      get_reply_message json_dumps url RaisedTimeout
        <> get_reply_message json_dumps url' RaisedTimeout
      /\ post_put_reply_message json_dumps method url RaisedTimeout
        <> post_put_reply_message json_dumps method url' RaisedTimeout
      /\ delete_reply_message json_dumps url RaisedTimeout
        <> delete_reply_message json_dumps url' RaisedTimeout).
Proof.
  split; intros Hne; repeat split; intros H; apply Hne;
    cbv beta iota delta
      [get_reply_message post_put_reply_message delete_reply_message] in H;
    repeat (apply app_inv_head in H); apply app_inv_tail in H; exact H.
Qed.

(** Two errors on the same URL, and a timeout on two URLs. *)
Lemma failure_detail_kept_witness :
  delete_reply_message Example.json_dumps Example.url
    (RaisedRequestException (lit "Connection refused"))
  <> delete_reply_message Example.json_dumps Example.url
       (RaisedRequestException (lit "Name or service not known"))
  /\ post_put_reply_message Example.json_dumps (lit "PUT") Example.url RaisedTimeout
     <> post_put_reply_message Example.json_dumps (lit "PUT") (lit "http://localhost")
          RaisedTimeout.
Proof.
  destruct (failure_detail_kept Example.json_dumps (lit "PUT") Example.url
              (lit "http://localhost") (lit "Connection refused")
              (lit "Name or service not known")) as (Herr & Htime).
  split.
  - apply Herr. discriminate.
  - apply Htime. discriminate.
Defined.

(** ** The notice before a POST or PUT request *)

(** X7: the notice that [handle_post_put] sends before the request quotes the
    payload text whole when it has at most 200 characters, and otherwise its
    first 200 characters followed by three dots; the request carries the
    parsed payload in either case. *)
Theorem payload_preview json_loads json_dumps net text method cmd url rest v m :
  split 32%N 2 text = cmd :: url :: rest ->
  valid_scheme url = true ->
  json_loads (payload_text rest) = inl v ->
  method_of method = Some m ->
  (length (payload_text rest) <= 200 ->
   head (run net (handle_post_put json_loads json_dumps text method)) =
     Some (SentReply
             (play ++ lit " Sending " ++ method ++ lit " request to: " ++ url
                ++ lit " with data: `" ++ payload_text rest ++ lit "`...") None))
  /\ (200 < length (payload_text rest) ->
      head (run net (handle_post_put json_loads json_dumps text method)) =
        Some (SentReply
                (play ++ lit " Sending " ++ method ++ lit " request to: " ++ url
                   ++ lit " with data: `" ++ take 200 (payload_text rest)
                   ++ lit "..." ++ lit "`...") None))
  /\ requests_of (run net (handle_post_put json_loads json_dumps text method))
     = [SentRequest m url (Some v) 15].
Proof.
  intros Hs E Hv Hm.
  rewrite (handle_post_put_valid _ _ _ _ cmd url rest Hs E).
  rewrite run_post_put_send_cases, Hv, Hm. unfold sending_notice.
  split; [|split; [|reflexivity]]; intros Hlen; simpl head.
  - apply Nat.ltb_ge in Hlen as Hb. rewrite Hb, take_ge by exact Hlen.
    reflexivity.
  - apply Nat.ltb_lt in Hlen. rewrite Hlen. reflexivity.
Qed.

(** A payload of 302 characters is quoted by its first 200. *)
Lemma payload_preview_witness :
  head (run Example.timing_out
          (handle_post Example.json_loads_padded Example.json_dumps
             (lit "/post https://example.com/thing " ++ Example.padded_object 300)))
  = Some (SentReply
            (play ++ lit " Sending " ++ lit "POST" ++ lit " request to: "
               ++ Example.url ++ lit " with data: `"
               ++ take 200 (payload_text [Example.padded_object 300])
               ++ lit "..." ++ lit "`...") None)
  /\ head (run Example.timing_out
             (handle_post Example.json_loads_padded Example.json_dumps
                (lit "/post https://example.com/thing " ++ Example.padded_object 198)))
     = Some (SentReply
               (play ++ lit " Sending " ++ lit "POST" ++ lit " request to: "
                  ++ Example.url ++ lit " with data: `"
                  ++ payload_text [Example.padded_object 198] ++ lit "`...") None).
Proof.
  pose proof (fun n =>
                payload_preview Example.json_loads_padded Example.json_dumps
                  Example.timing_out
                  (lit "/post https://example.com/thing " ++ Example.padded_object n)
                  (lit "POST") (lit "/post") Example.url [Example.padded_object n]
                  (VDict []) POST) as P.
  split.
  - destruct (P 300) as (_ & Hlong & _); [vm_compute; reflexivity ..|].
    apply Hlong. apply Nat.ltb_lt. vm_compute. reflexivity.
  - destruct (P 198) as (Hshort & _); [vm_compute; reflexivity ..|].
    apply Hshort. apply Nat.leb_le. vm_compute. reflexivity.
Defined.

(** ** The size of a success message *)

Lemma length_truncated limit marker s :
  length (truncated limit marker s) <= limit + length marker.
Proof.
  unfold truncated. destruct (limit <? length s) eqn:E.
  - rewrite length_app, length_take. lia.
  - apply Nat.ltb_ge in E. lia.
Qed.

Lemma length_status_block title url r :
  length (status_block title url r) =
    length title + length url + length (of_int (status_code r))
      + length (reason r) + 41.
Proof. unfold status_block. rewrite !length_app. literal_lengths. lia. Qed.

(** X8: the success message is bounded whatever the size of the response:
    beyond the URL, the status code, the reason phrase and, for POST and PUT,
    the method, it has at most 4645 characters for GET, 3592 for POST and PUT
    and 3594 for DELETE. *)
Theorem success_message_bounded json_dumps method url r :
  length (get_reply_message json_dumps url (Returned r))
    <= length url + length (of_int (status_code r)) + length (reason r) + 4645
  /\ length (post_put_reply_message json_dumps method url (Returned r))
    <= length method + length url + length (of_int (status_code r))
       + length (reason r) + 3592
  /\ length (delete_reply_message json_dumps url (Returned r))
    <= length url + length (of_int (status_code r)) + length (reason r) + 3594.
Proof.
  rewrite get_reply_layout, post_put_reply_layout, delete_reply_layout.
  pose proof (length_truncated headers_limit headers_truncated
                (response_headers_formatted json_dumps r)) as Hh.
  pose proof (length_truncated body_limit body_truncated
                (response_body_formatted json_dumps r)) as Hb.
  pose proof (length_truncated body_limit body_truncated
                (delete_response_body_formatted json_dumps r)) as Hd.
  change (length headers_truncated) with 25 in Hh.
  change (length body_truncated) with 31 in Hb, Hd.
  unfold headers_block, json_body_block, plain_body_block.
  rewrite !length_app, !length_status_block. literal_lengths.
  unfold headers_limit, body_limit in *.
  repeat split; try lia.
  destruct (truncated 3500 body_truncated
              (delete_response_body_formatted json_dumps r)) eqn:T.
  - change (length no_response_body) with 18. lia.
  - lia.
Qed.

(** ** The body of a DELETE response *)

(** X9: on a response for which [response.json()] fails when there is no
    content, as it does in [requests], [handle_delete] formats the body as
    [handle_get] and [handle_post_put] do: re-serialized when it is JSON, as
    text otherwise. *)
Theorem delete_formats_like_get json_dumps r :
  (content r = [] -> json r = None) ->
  delete_response_body_formatted json_dumps r = response_body_formatted json_dumps r.
Proof.
  intros Hr. unfold delete_response_body_formatted, response_body_formatted.
  destruct (content r); [rewrite Hr by reflexivity|]; reflexivity.
Qed.

Lemma delete_formats_like_get_witness :
  delete_response_body_formatted Example.json_dumps (Example.ones 3)
  = response_body_formatted Example.json_dumps (Example.ones 3)
  /\ delete_response_body_formatted Example.json_dumps Example.no_content
     = response_body_formatted Example.json_dumps Example.no_content.
Proof.
  split; apply delete_formats_like_get.
  - discriminate.
  - reflexivity.
Defined.

(** ** The order of the effects *)

